(** * server/server.py: a simulated endpoint with drifting latency and errors

    A shallow embedding of [ServerState] and [handle_request].

    Number model: for the order, bound and structural properties Python's
    floats are idealised as exact rationals ([Q], compared with [==]).
    Where a property names the digits of a computed value, the arithmetic
    is binary64 itself: the module [Binary64] replays [update_state] on
    primitive floats.
    The two ambient inputs of the program, the wall clock ([time.time()])
    and the random source ([random.uniform], [random.random]), are oracles:
    every successive call reads the next entry of a stream.  Python objects
    live in a heap indexed by addresses, so that two [ServerState()]
    constructions yield two distinct objects. *)

From Stdlib Require Import QArith Qabs Lqa Lia Bool String Arith List.
From Stdlib Require Floats.PrimFloat.
Import ListNotations.

Local Open Scope Q_scope.

(** ** Python's comparison, [max] and [min] on numbers *)

(** [a < b] as a boolean. *)
Definition Qltb (a b : Q) : bool := negb (Qle_bool b a).

(** [max(a, b)]: the first argument is kept unless a later one is greater. *)
Definition py_max (a b : Q) : Q := if Qltb a b then b else a.

(** [min(a, b)]: the first argument is kept unless a later one is smaller. *)
Definition py_min (a b : Q) : Q := if Qltb b a then b else a.

(** ** The object [ServerState] *)

Record ServerState : Type := mkServerState {
  latency : Q;
  error_rate : Q;
  error_state : bool;
  last_request_time : Q
}.

Definition set_latency (v : Q) (s : ServerState) : ServerState :=
  mkServerState v (error_rate s) (error_state s) (last_request_time s).

Definition set_error_state (v : bool) (s : ServerState) : ServerState :=
  mkServerState (latency s) (error_rate s) v (last_request_time s).

Definition set_last_request_time (v : Q) (s : ServerState) : ServerState :=
  mkServerState (latency s) (error_rate s) (error_state s) v.

(** ** The world: oracles, heap and the log of sleeps *)

(** The inputs the program draws from its environment. [clock i] is the
    value of the [i]-th call of [time.time()]; [entropy i] is the value
    of the [i]-th call into the module [random]. *)
Record Oracle : Type := mkOracle {
  clock : nat -> Q;
  entropy : nat -> Q
}.

Definition addr : Type := nat.

Record World : Type := mkWorld {
  clock_pos : nat;
  entropy_pos : nat;
  heap : list ServerState;
  slept : list Q
}.

(** [heap[a] = v]; nothing happens when [a] is not allocated. *)
Fixpoint heap_set (h : list ServerState) (a : addr) (v : ServerState)
  : list ServerState :=
  match h, a with
  | [], _ => []
  | _ :: t, O => v :: t
  | x :: t, S a' => x :: heap_set t a' v
  end.

(** ** A reader, state and failure monad for the program's effects *)

Definition M (A : Type) : Type := Oracle -> World -> option (A * World).

Definition ret {A : Type} (a : A) : M A := fun _ w => Some (a, w).

Definition bind {A B : Type} (m : M A) (k : A -> M B) : M B :=
  fun o w =>
    match m o w with
    | Some (a, w') => k a o w'
    | None => None
    end.

Declare Scope py_scope.
Delimit Scope py_scope with py.
Notation "x <- m ;; k" := (bind m (fun x => k))
  (at level 61, m at next level, right associativity) : py_scope.
Notation "m ;;; k" := (bind m (fun _ => k))
  (at level 61, right associativity) : py_scope.
Local Open Scope py_scope.

(** [time.time()] *)
Definition time_time : M Q :=
  fun o w =>
    Some (clock o (clock_pos w),
          mkWorld (S (clock_pos w)) (entropy_pos w) (heap w) (slept w)).

(** One call into the random source. *)
Definition next_entropy : M Q :=
  fun o w =>
    Some (entropy o (entropy_pos w),
          mkWorld (clock_pos w) (S (entropy_pos w)) (heap w) (slept w)).

(** [random.uniform(a, b)]: the oracle supplies the drawn value, which the
    library promises to lie between [a] and [b]. *)
Definition random_uniform (a b : Q) : M Q := next_entropy.

(** [random.random()]: the oracle supplies the drawn value, which the
    library promises to lie in [[0, 1)]. *)
Definition random_random : M Q := next_entropy.

(** [time.sleep(secs)]: raises [ValueError] on a negative argument.  The
    failure of the library on arguments too large for its clock (some
    [9.2e9] seconds and more) is not modelled: properties about sleeping
    are stated for bounded arguments. *)
Definition time_sleep (secs : Q) : M unit :=
  fun _ w =>
    if Qltb secs 0 then None
    else Some (tt, mkWorld (clock_pos w) (entropy_pos w) (heap w)
                           (slept w ++ [secs])).

(** Reading the object at [self]; a dangling address raises. *)
Definition load (self : addr) : M ServerState :=
  fun _ w =>
    match nth_error (heap w) self with
    | Some s => Some (s, w)
    | None => None
    end.

(** [self.f = v] for a field update [upd]. *)
Definition store (self : addr) (upd : ServerState -> ServerState) : M unit :=
  fun _ w =>
    match nth_error (heap w) self with
    | Some s =>
        Some (tt, mkWorld (clock_pos w) (entropy_pos w)
                          (heap_set (heap w) self (upd s)) (slept w))
    | None => None
    end.

(** Allocation of a new object with the given fields. *)
Definition alloc (s : ServerState) : M addr :=
  fun _ w =>
    Some (length (heap w),
          mkWorld (clock_pos w) (entropy_pos w) (heap w ++ [s]) (slept w)).

(** ** The methods of [ServerState] *)

(** [ServerState()], that is [__init__] on a new object. *)
Definition ServerState_new : M addr :=
  t <- time_time ;;
  alloc (mkServerState 0 (1 # 100) false t).

(** [reset] *)
Definition reset (self : addr) : M unit :=
  store self (set_latency 0) ;;;
  store self (set_error_state false).

(** [simulate_latency]; the [print] of the latency is not modelled. *)
Definition simulate_latency (self : addr) : M unit :=
  s <- load self ;;
  time_sleep (latency s).

(** [simulate_error] *)
Definition simulate_error (self : addr) : M bool :=
  s <- load self ;;
  ret (error_state s).

(** [update_state] *)
Definition update_state (self : addr) : M unit :=
  current_time <- time_time ;;
  s0 <- load self ;;
  let time_diff := current_time - last_request_time s0 in
  store self (set_last_request_time current_time) ;;;
  let latency_scale := py_min (py_max (time_diff / 5) (1 # 10)) 2 in
  u <- random_uniform (- (1 # 10)) (1 # 10) ;;
  let latency_change := u * latency_scale in
  s1 <- load self ;;
  store self (set_latency (py_max 0 (latency s1 + latency_change))) ;;;
  let error_scale := py_min (py_max (time_diff / 10) (1 # 10)) 2 in
  r <- random_random ;;
  if Qltb r ((2 # 10) * error_scale)
  then s2 <- load self ;;
       store self (set_error_state (negb (error_state s2)))
  else ret tt.

(** ** The endpoint *)

(** A JSON object with string values, as [jsonify] receives it. *)
Definition json : Type := list (string * string).

Definition jsonify (d : json) : json := d.

Definition Response : Type := (json * Z)%type.

(** [handle_request] *)
Definition handle_request : M Response :=
  state <- ServerState_new ;;
  update_state state ;;;
  simulate_latency state ;;;
  e <- simulate_error state ;;
  if e
  then ret (jsonify [("error", "Simulated server error")]%string, 500%Z)
  else
    let data := [("message", "Hello, World!")]%string in
    ret (jsonify data, 200%Z).

(** ** Sequences of calls on one object *)

(** [n] successive calls of [update_state] on the object [self]; after each
    call the pair (latency, error flag) of the object is recorded, as
    [simulate_latency] and [simulate_error] would read it. *)
Fixpoint update_many (self : addr) (n : nat) : M (list (Q * bool)) :=
  match n with
  | O => ret []
  | S n' =>
      update_state self ;;;
      s <- load self ;;
      rest <- update_many self n' ;;
      ret ((latency s, error_state s) :: rest)
  end.

(** [n] successive requests; the responses are collected in order. *)
Fixpoint serve (n : nat) : M (list Response) :=
  match n with
  | O => ret []
  | S n' =>
      r <- handle_request ;;
      rest <- serve n' ;;
      ret (r :: rest)
  end.

(** ** The net effect of one [update_state] on its object *)

Definition latency_scale (time_diff : Q) : Q :=
  py_min (py_max (time_diff / 5) (1 # 10)) 2.

Definition latency_change (time_diff u : Q) : Q :=
  u * latency_scale time_diff.

Definition error_scale (time_diff : Q) : Q :=
  py_min (py_max (time_diff / 10) (1 # 10)) 2.

Definition flips (time_diff r : Q) : bool :=
  Qltb r ((2 # 10) * error_scale time_diff).

(** The object after [update_state], given the clock reading [now] and the
    two draws [u] (of [random.uniform]) and [r] (of [random.random]). *)
Definition advance (s : ServerState) (now u r : Q) : ServerState :=
  let time_diff := now - last_request_time s in
  mkServerState
    (py_max 0 (latency s + latency_change time_diff u))
    (error_rate s)
    (if flips time_diff r then negb (error_state s) else error_state s)
    now.

(** The world after [update_state] on [self], whose object is [s]. *)
Definition after_update (self : addr) (s : ServerState) (o : Oracle)
  (w : World) : World :=
  mkWorld (S (clock_pos w)) (S (S (entropy_pos w)))
    (heap_set (heap w) self
       (advance s (clock o (clock_pos w))
          (entropy o (entropy_pos w)) (entropy o (S (entropy_pos w)))))
    (slept w).

(** The successive objects produced by [n] calls of [update_state] from
    the object [s], reading the clock from position [cp] and the random
    source from position [ep]. *)
Fixpoint states_from (o : Oracle) (cp ep : nat) (s : ServerState) (n : nat)
  : list ServerState :=
  match n with
  | O => []
  | S n' =>
      let s' := advance s (clock o cp) (entropy o ep) (entropy o (S ep)) in
      s' :: states_from o (S cp) (S (S ep)) s' n'
  end.

(** What a caller observes of an object. *)
Definition observe (s : ServerState) : Q * bool :=
  (latency s, error_state s).

(** The flip decisions of [n] successive calls: they depend on the clock,
    on the previous reading [last] and on the draws only. *)
Fixpoint flip_trace (o : Oracle) (cp ep : nat) (last : Q) (n : nat)
  : list bool :=
  match n with
  | O => []
  | S n' =>
      flips (clock o cp - last) (entropy o (S ep))
        :: flip_trace o (S cp) (S (S ep)) (clock o cp) n'
  end.

(** The flags obtained from [b] by negating at every [true] decision. *)
Fixpoint toggle_trace (b : bool) (decisions : list bool) : list bool :=
  match decisions with
  | [] => []
  | d :: t =>
      let b' := if d then negb b else b in
      b' :: toggle_trace b' t
  end.

(** [clamp(x, lo, hi)] as the specification words it. *)
Definition clamp (x lo hi : Q) : Q :=
  if Qltb x lo then lo else if Qltb hi x then hi else x.

(** The first object [ServerState()] builds when the clock reads [t]. *)
Definition initial_state (t : Q) : ServerState :=
  mkServerState 0 (1 # 100) false t.

(** The two responses of the endpoint. *)
Definition error_response : Response :=
  ([("error", "Simulated server error")]%string, 500%Z).

Definition ok_response : Response :=
  ([("message", "Hello, World!")]%string, 200%Z).

(** The object a request leaves behind: built by [ServerState()] at the
    first clock reading and updated once at the second. *)
Definition request_state (o : Oracle) (w : World) : ServerState :=
  advance (initial_state (clock o (clock_pos w)))
    (clock o (S (clock_pos w)))
    (entropy o (entropy_pos w)) (entropy o (S (entropy_pos w))).

(** Case analysis on the sign of every argument of [Qabs] in the goal. *)
Ltac split_abs :=
  repeat match goal with
         | |- context [Qabs ?x] =>
             destruct (Qlt_le_dec x 0);
             [rewrite (Qabs_neg x) by lra | rewrite (Qabs_pos x) by lra]
         end.

(** ** [update_state] in binary64 *)

(** The arithmetic of [update_state] on primitive floats, with the clock
    reading [current_time] and the two draws [u] (of [random.uniform]) and
    [r] (of [random.random]) passed in. *)
Module Binary64.
Import PrimFloat.
Local Open Scope float_scope.
#[local] Set Warnings "-inexact-float".

(** [max(a, b)] and [min(a, b)] of Python on floats. *)
Definition py_max (a b : float) : float := if a <? b then b else a.

Definition py_min (a b : float) : float := if b <? a then b else a.

Record ServerState : Type := mkServerState {
  latency : float;
  error_rate : float;
  error_state : bool;
  last_request_time : float
}.

Definition latency_scale (time_diff : float) : float :=
  py_min (py_max (time_diff / 5.0) 0.1) 2.0.

Definition error_scale (time_diff : float) : float :=
  py_min (py_max (time_diff / 10.0) 0.1) 2.0.

(** [update_state] *)
Definition update_state (self : ServerState) (current_time u r : float)
  : ServerState :=
  let time_diff := current_time - last_request_time self in
  let latency_scale := py_min (py_max (time_diff / 5.0) 0.1) 2.0 in
  let latency_change := u * latency_scale in
  let latency' := py_max 0.0 (latency self + latency_change) in
  let error_scale := py_min (py_max (time_diff / 10.0) 0.1) 2.0 in
  let error_state' :=
    if r <? 0.2 * error_scale
    then negb (error_state self) else error_state self in
  mkServerState latency' (error_rate self) error_state' current_time.
End Binary64.

(** * Properties *)

(** ** Comparisons *)

Lemma Qltb_true (a b : Q) : Qltb a b = true <-> a < b.
Proof.
  unfold Qltb. rewrite negb_true_iff, <- not_true_iff_false, Qle_bool_iff.
  split; [apply Qnot_le_lt | apply Qlt_not_le].
Qed.

Lemma Qltb_false (a b : Q) : Qltb a b = false <-> b <= a.
Proof.
  unfold Qltb. rewrite negb_false_iff. apply Qle_bool_iff.
Qed.

Lemma py_max_cases (a b : Q) :
  (a < b /\ py_max a b = b) \/ (b <= a /\ py_max a b = a).
Proof.
  unfold py_max. destruct (Qltb a b) eqn:E.
  - left. split; [now apply Qltb_true | reflexivity].
  - right. split; [now apply Qltb_false | reflexivity].
Qed.

Lemma py_min_cases (a b : Q) :
  (b < a /\ py_min a b = b) \/ (a <= b /\ py_min a b = a).
Proof.
  unfold py_min. destruct (Qltb b a) eqn:E.
  - left. split; [now apply Qltb_true | reflexivity].
  - right. split; [now apply Qltb_false | reflexivity].
Qed.

Lemma py_max_lower (a b : Q) : a <= py_max a b /\ b <= py_max a b.
Proof.
  destruct (py_max_cases a b) as [[H ->] | [H ->]]; split; lra.
Qed.

(** ** The heap *)

Lemma heap_set_length (h : list ServerState) (a : addr) (v : ServerState) :
  length (heap_set h a v) = length h.
Proof.
  revert a. induction h as [| x t IH]; intros [| a]; simpl; auto.
Qed.

Lemma heap_set_same (h : list ServerState) (a : addr) (v : ServerState) :
  (a < length h)%nat -> nth_error (heap_set h a v) a = Some v.
Proof.
  revert a. induction h as [| x t IH]; intros [| a] H; simpl in *;
    try lia; auto.
  apply IH. lia.
Qed.

Lemma heap_set_other (h : list ServerState) (a b : addr) (v : ServerState) :
  a <> b -> nth_error (heap_set h a v) b = nth_error h b.
Proof.
  revert a b. induction h as [| x t IH]; intros [| a] [| b] H; simpl;
    try congruence; auto.
Qed.

Lemma heap_set_twice (h : list ServerState) (a : addr) (v v' : ServerState) :
  heap_set (heap_set h a v) a v' = heap_set h a v'.
Proof.
  revert a. induction h as [| x t IH]; intros [| a]; simpl; auto.
  now rewrite IH.
Qed.

Lemma nth_error_allocated (h : list ServerState) (a : addr) (s : ServerState) :
  nth_error h a = Some s -> (a < length h)%nat.
Proof.
  intros H. apply nth_error_Some. congruence.
Qed.

(** ** [update_state] as a state transformer *)

Lemma update_state_spec (self : addr) (o : Oracle) (w : World)
  (s : ServerState) :
  nth_error (heap w) self = Some s ->
  update_state self o w = Some (tt, after_update self s o w).
Proof.
  intros Hs. pose proof (nth_error_allocated _ _ _ Hs) as Hlen.
  unfold update_state, after_update, advance, flips, latency_change,
    latency_scale, error_scale, bind, time_time, random_uniform,
    random_random, next_entropy, load, store, ret; simpl.
  rewrite Hs; simpl. rewrite Hs; simpl.
  rewrite heap_set_same by assumption; simpl.
  rewrite heap_set_same by assumption; simpl.
  rewrite heap_set_twice.
  destruct (Qltb _ _); simpl.
  - rewrite heap_set_same by assumption; simpl.
    rewrite heap_set_same by assumption; simpl.
    now rewrite heap_set_twice.
  - reflexivity.
Qed.

Lemma update_state_dangling (self : addr) (o : Oracle) (w : World) :
  nth_error (heap w) self = None -> update_state self o w = None.
Proof.
  intros Hs.
  unfold update_state, bind, time_time, load; simpl. now rewrite Hs.
Qed.

Lemma after_update_lookup (self : addr) (s : ServerState) (o : Oracle)
  (w : World) :
  nth_error (heap w) self = Some s ->
  nth_error (heap (after_update self s o w)) self =
    Some (advance s (clock o (clock_pos w))
            (entropy o (entropy_pos w)) (entropy o (S (entropy_pos w)))).
Proof.
  intros Hs. simpl. apply heap_set_same. eapply nth_error_allocated; eauto.
Qed.

Lemma last_cons {A : Type} (a d : A) (l : list A) :
  last (a :: l) d = last l a.
Proof.
  revert a d. induction l as [| b l IH]; intros a d; [reflexivity |].
  change (last (a :: b :: l) d) with (last (b :: l) d).
  now rewrite !IH.
Qed.

(** ** [update_many] follows [states_from] *)

Lemma update_many_spec (self : addr) (o : Oracle) (n : nat) :
  forall (w : World) (s : ServerState),
    nth_error (heap w) self = Some s ->
    exists w',
      update_many self n o w =
        Some (map observe (states_from o (clock_pos w) (entropy_pos w) s n),
              w')
      /\ nth_error (heap w') self =
           Some (last (states_from o (clock_pos w) (entropy_pos w) s n) s)
      /\ clock_pos w' = (clock_pos w + n)%nat
      /\ entropy_pos w' = (entropy_pos w + 2 * n)%nat
      /\ slept w' = slept w.
Proof.
  induction n as [| n IH]; intros w s Hs.
  - exists w. simpl. unfold ret. repeat split; auto; lia.
  - pose proof (update_state_spec self o w s Hs) as Hu.
    pose proof (after_update_lookup self s o w Hs) as Hl.
    destruct (IH _ _ Hl) as (w' & Hrun & Hlast & Hc & He & Hsl).
    exists w'. cbn [update_many]. unfold bind at 1. rewrite Hu.
    unfold bind at 1. unfold load at 1. rewrite Hl.
    unfold bind at 1. rewrite Hrun. unfold ret.
    cbn [states_from map]. simpl clock_pos in *. simpl entropy_pos in *.
    repeat split.
    + rewrite Hlast. now rewrite last_cons.
    + rewrite Hc. lia.
    + rewrite He. lia.
    + rewrite Hsl. reflexivity.
Qed.

(** ** Allocation *)

Lemma nth_error_snoc (h : list ServerState) (s : ServerState) :
  nth_error (h ++ [s]) (length h) = Some s.
Proof.
  induction h as [| x t IH]; simpl; auto.
Qed.

Lemma heap_set_snoc (h : list ServerState) (s v : ServerState) :
  heap_set (h ++ [s]) (length h) v = h ++ [v].
Proof.
  induction h as [| x t IH]; simpl; [reflexivity | now rewrite IH].
Qed.

Lemma ServerState_new_spec (o : Oracle) (w : World) :
  ServerState_new o w =
    Some (length (heap w),
          mkWorld (S (clock_pos w)) (entropy_pos w)
            (heap w ++ [initial_state (clock o (clock_pos w))]) (slept w)).
Proof. reflexivity. Qed.

(** ** One request *)

Lemma advance_latency_nonneg (s : ServerState) (now u r : Q) :
  0 <= latency (advance s now u r).
Proof.
  simpl. apply py_max_lower.
Qed.

Lemma handle_request_spec (o : Oracle) (w : World) :
  handle_request o w =
    Some (if error_state (request_state o w)
          then error_response else ok_response,
          mkWorld (S (S (clock_pos w))) (S (S (entropy_pos w)))
            (heap w ++ [request_state o w])
            (slept w ++ [latency (request_state o w)])).
Proof.
  unfold handle_request. unfold bind at 1. rewrite ServerState_new_spec.
  set (w0 := mkWorld _ _ _ _).
  assert (H0 : nth_error (heap w0) (length (heap w)) =
               Some (initial_state (clock o (clock_pos w))))
    by apply nth_error_snoc.
  unfold bind at 1. rewrite (update_state_spec _ _ _ _ H0).
  pose proof (after_update_lookup _ _ o w0 H0) as H1.
  change (advance _ _ _ _) with (request_state o w) in H1.
  unfold bind at 1. unfold simulate_latency, bind at 1.
  unfold load at 1. rewrite H1. unfold time_sleep.
  assert (Hn : Qltb (latency (request_state o w)) 0 = false)
    by (apply Qltb_false, advance_latency_nonneg).
  rewrite Hn. unfold bind at 1. unfold simulate_error, bind at 1.
  unfold load at 1. cbn [heap]. cbn [heap] in H1. rewrite H1.
  unfold ret, jsonify, error_response, ok_response.
  unfold after_update, w0. cbn [heap clock_pos entropy_pos slept].
  rewrite heap_set_snoc.
  change (advance _ _ _ _) with (request_state o w).
  destruct (error_state (request_state o w)); reflexivity.
Qed.

(** ** Latency never goes negative *)

Lemma states_from_nonneg (o : Oracle) (n : nat) :
  forall (cp ep : nat) (s : ServerState),
    Forall (fun s' => 0 <= latency s') (states_from o cp ep s n).
Proof.
  induction n as [| n IH]; intros cp ep s; simpl; constructor.
  - apply py_max_lower.
  - apply IH.
Qed.

Lemma last_Forall {A : Type} (P : A -> Prop) (l : list A) (d : A) :
  Forall P l -> P d -> P (last l d).
Proof.
  intros Hl. revert d. induction Hl as [| x l Hx Hl IH]; intros d Hd.
  - exact Hd.
  - rewrite last_cons. now apply IH.
Qed.

(** C2. Along every sequence of [update_state] calls on an object whose
    latency is non-negative, for every clock and every draw, all calls
    return and the latency is non-negative after each of them. *)
Theorem update_state_latency_nonneg (self : addr) (o : Oracle) (n : nat)
  (w : World) (s : ServerState) :
  nth_error (heap w) self = Some s ->
  0 <= latency s ->
  exists outs w' s',
    update_many self n o w = Some (outs, w')
    /\ Forall (fun p => 0 <= fst p) outs
    /\ nth_error (heap w') self = Some s'
    /\ 0 <= latency s'.
Proof.
  intros Hs Hl.
  destruct (update_many_spec self o n w s Hs) as (w' & Hrun & Hlast & _).
  pose proof (states_from_nonneg o n (clock_pos w) (entropy_pos w) s) as Hall.
  eexists _, w', _. split; [exact Hrun |]. split; [| split; [exact Hlast |]].
  - apply Forall_map. exact Hall.
  - now apply last_Forall.
Qed.

Lemma update_state_latency_nonneg_witness :
  let o := mkOracle (fun i => inject_Z (Z.of_nat i)) (fun _ => - (1 # 10)) in
  let w := mkWorld 0 0 [mkServerState (1 # 20) (1 # 100) false 0] [] in
  exists outs w' s',
    update_many 0%nat 3 o w = Some (outs, w')
    /\ Forall (fun p => 0 <= fst p) outs
    /\ nth_error (heap w') 0%nat = Some s'
    /\ 0 <= latency s'.
Proof.
  intros o w.
  apply (update_state_latency_nonneg 0%nat o 3 w
           (mkServerState (1 # 20) (1 # 100) false 0)).
  - reflexivity.
  - simpl. lra.
Defined.

(** ** The error flag is toggled *)

Lemma states_from_flags (o : Oracle) (n : nat) :
  forall (cp ep : nat) (s : ServerState),
    map error_state (states_from o cp ep s n) =
      toggle_trace (error_state s)
        (flip_trace o cp ep (last_request_time s) n).
Proof.
  induction n as [| n IH]; intros cp ep s; [reflexivity |].
  cbn [states_from flip_trace toggle_trace map].
  rewrite IH. reflexivity.
Qed.

Lemma toggle_trace_no_flip (decisions : list bool) (b : bool) :
  Forall (eq false) decisions -> Forall (eq b) (toggle_trace b decisions).
Proof.
  intros H. induction H as [| d t Hd Ht IH]; simpl; constructor.
  - now subst d.
  - subst d. exact IH.
Qed.

(** C5. Along every sequence of [update_state] calls the flags observed
    after the calls are obtained from the initial flag by negating it at
    each flip decision, and the decisions do not read the flag; in
    particular, from [False] and without any flip, the flag stays
    [False]. *)
Theorem error_state_toggles (self : addr) (o : Oracle) (n : nat)
  (w : World) (s : ServerState) :
  nth_error (heap w) self = Some s ->
  exists outs w',
    update_many self n o w = Some (outs, w')
    /\ map snd outs =
         toggle_trace (error_state s)
           (flip_trace o (clock_pos w) (entropy_pos w)
              (last_request_time s) n)
    /\ (error_state s = false ->
        Forall (eq false)
          (flip_trace o (clock_pos w) (entropy_pos w)
             (last_request_time s) n) ->
        Forall (eq false) (map snd outs)).
Proof.
  intros Hs.
  destruct (update_many_spec self o n w s Hs) as (w' & Hrun & _).
  eexists _, w'. split; [exact Hrun |].
  assert (E : map snd
                (map observe
                   (states_from o (clock_pos w) (entropy_pos w) s n)) =
              toggle_trace (error_state s)
                (flip_trace o (clock_pos w) (entropy_pos w)
                   (last_request_time s) n)).
  { rewrite map_map. apply states_from_flags. }
  split; [exact E |].
  intros Hb Hno. rewrite E, Hb. now apply toggle_trace_no_flip.
Qed.

Lemma error_state_toggles_witness :
  let o := mkOracle (fun i => inject_Z (Z.of_nat i)) (fun _ => 1 # 2) in
  let w := mkWorld 0 0 [initial_state 0] [] in
  exists outs w',
    update_many 0%nat 3 o w = Some (outs, w')
    /\ map snd outs =
         toggle_trace false (flip_trace o 0 0 0 3)
    /\ (false = false ->
        Forall (eq false) (flip_trace o 0 0 0 3) ->
        Forall (eq false) (map snd outs)).
Proof.
  intros o w.
  apply (error_state_toggles 0%nat o 3 w (initial_state 0)).
  reflexivity.
Defined.

(** ** Determinism *)

(** C8. Two runs of [update_state] calls from the same world, whose clocks
    and random sources agree on the entries the calls consume, return the
    same outputs and end in the same world. *)
Theorem update_many_deterministic (o1 o2 : Oracle) (self : addr) (n : nat) :
  forall w : World,
    (forall i, (clock_pos w <= i < clock_pos w + n)%nat ->
               clock o1 i = clock o2 i) ->
    (forall i, (entropy_pos w <= i < entropy_pos w + 2 * n)%nat ->
               entropy o1 i = entropy o2 i) ->
    update_many self n o1 w = update_many self n o2 w.
Proof.
  induction n as [| n IH]; intros w Hc He; [reflexivity |].
  cbn [update_many]. unfold bind at 1 4.
  destruct (nth_error (heap w) self) as [s |] eqn:Hs.
  - rewrite !(update_state_spec _ _ _ _ Hs).
    assert (Ew : after_update self s o1 w = after_update self s o2 w).
    { unfold after_update.
      rewrite (Hc (clock_pos w)) by lia.
      rewrite (He (entropy_pos w)) by lia.
      rewrite (He (S (entropy_pos w))) by lia.
      reflexivity. }
    rewrite Ew. unfold bind at 1 3. unfold load at 1 2.
    destruct (nth_error (heap (after_update self s o2 w)) self);
      [| reflexivity].
    unfold bind at 1 2.
    rewrite (IH (after_update self s o2 w)); [reflexivity | |].
    + intros i Hi. apply Hc. simpl in Hi. lia.
    + intros i Hi. apply He. simpl in Hi. lia.
  - now rewrite !update_state_dangling.
Qed.

Lemma update_many_deterministic_witness :
  let o1 := mkOracle (fun i => inject_Z (Z.of_nat i))
              (fun i => if (i <? 4)%nat then 1 # 20 else 0) in
  let o2 := mkOracle (fun i => if (i <? 2)%nat then inject_Z (Z.of_nat i)
                               else 7)
              (fun i => if (i <? 4)%nat then 1 # 20 else 1) in
  let w := mkWorld 0 0 [initial_state 0] [] in
  update_many 0%nat 2 o1 w = update_many 0%nat 2 o2 w.
Proof.
  intros o1 o2 w.
  apply (update_many_deterministic o1 o2 0%nat 2 w).
  - intros i Hi. simpl in Hi.
    assert (Hi' : (i = 0 \/ i = 1)%nat) by lia.
    destruct Hi' as [-> | ->]; reflexivity.
  - intros i Hi. simpl in Hi.
    assert (Hi' : (i = 0 \/ i = 1 \/ i = 2 \/ i = 3)%nat) by lia.
    destruct Hi' as [-> | [-> | [-> | ->]]]; reflexivity.
Defined.

(** ** The scale factors *)

Lemma py_min_max_clamp (x : Q) :
  py_min (py_max x (1 # 10)) 2 = clamp x (1 # 10) 2.
Proof.
  unfold py_min, py_max, clamp.
  destruct (Qltb x (1 # 10)); reflexivity.
Qed.

Lemma clamp_bounds (x : Q) : 1 # 10 <= clamp x (1 # 10) 2 <= 2.
Proof.
  unfold clamp.
  destruct (Qltb x (1 # 10)) eqn:E1; [lra |].
  destruct (Qltb 2 x) eqn:E2; [lra |].
  apply Qltb_false in E1, E2. lra.
Qed.

Lemma latency_scale_bounds (elapsed : Q) :
  1 # 10 <= latency_scale elapsed <= 2.
Proof.
  unfold latency_scale. rewrite py_min_max_clamp. apply clamp_bounds.
Qed.

(** C3. For every elapsed time (non-negative or not) the latency scale of
    [update_state] is [clamp(elapsed / 5.0, 0.1, 2.0)], the error scale is
    [clamp(elapsed / 10.0, 0.1, 2.0)], and both lie in [[0.1, 2.0]]. *)
Theorem scales_are_clamped (elapsed : Q) :
  latency_scale elapsed = clamp (elapsed / 5) (1 # 10) 2
  /\ error_scale elapsed = clamp (elapsed / 10) (1 # 10) 2
  /\ (1 # 10 <= latency_scale elapsed <= 2)
  /\ (1 # 10 <= error_scale elapsed <= 2).
Proof.
  unfold latency_scale, error_scale. rewrite !py_min_max_clamp.
  repeat split; apply clamp_bounds.
Qed.

(** ** The flip threshold *)

Lemma advance_flag (s : ServerState) (now u r : Q) :
  error_state (advance s now u r) = negb (error_state s)
  <-> r < (2 # 10) * error_scale (now - last_request_time s).
Proof.
  cbn [advance error_state]. unfold flips. rewrite <- Qltb_true.
  destruct (Qltb r _); destruct (error_state s); simpl;
    split; congruence.
Qed.

(** C4, as amended. [update_state] negates the flag exactly when the draw
    of [random.random()] is less than [0.2 * error_scale], with the literal
    [0.2] of the method; the attribute [error_rate] is neither read nor
    written. *)
Theorem flip_iff_draw_below_threshold (self : addr) (o : Oracle) (w : World)
  (s : ServerState) :
  nth_error (heap w) self = Some s ->
  exists w' s',
    update_state self o w = Some (tt, w')
    /\ nth_error (heap w') self = Some s'
    /\ (error_state s' = negb (error_state s)
        <-> entropy o (S (entropy_pos w))
              < (2 # 10)
                * error_scale (clock o (clock_pos w) - last_request_time s))
    /\ error_rate s' = error_rate s.
Proof.
  intros Hs. eexists _, _.
  split; [exact (update_state_spec self o w s Hs) |].
  split; [exact (after_update_lookup self s o w Hs) |].
  split; [apply advance_flag | reflexivity].
Qed.

Lemma flip_iff_draw_below_threshold_witness :
  let o := mkOracle (fun _ => 0) (fun _ => 1 # 100) in
  let w := mkWorld 0 0 [initial_state 0] [] in
  exists w' s',
    update_state 0%nat o w = Some (tt, w')
    /\ nth_error (heap w') 0%nat = Some s'
    /\ (error_state s' = negb false
        <-> (1 # 100) < (2 # 10) * error_scale (0 - 0))
    /\ error_rate s' = 1 # 100.
Proof.
  intros o w.
  apply (flip_iff_draw_below_threshold 0%nat o w (initial_state 0)).
  reflexivity.
Defined.

(** C4, as stated, fails: on the object [ServerState()] builds
    ([error_rate = 0.01]), with no time elapsed and a draw of [0.01], the
    flag flips although the draw is not below [error_rate * error_scale]. *)
Lemma flip_ignores_error_rate :
  let o := mkOracle (fun _ => 0) (fun _ => 1 # 100) in
  let s := initial_state 0 in
  let w := mkWorld 0 0 [s] [] in
  exists w' s',
    update_state 0%nat o w = Some (tt, w')
    /\ nth_error (heap w') 0%nat = Some s'
    /\ error_state s = false
    /\ error_state s' = true
    /\ ~ (entropy o 1
            < error_rate s
              * error_scale (clock o 0 - last_request_time s)).
Proof.
  intros o s w. eexists _, _.
  split; [vm_compute; reflexivity |].
  split; [vm_compute; reflexivity |].
  split; [reflexivity |]. split; [reflexivity |].
  vm_compute. discriminate.
Qed.

(** ** Compatibility with the equality of rationals *)

#[local] Instance Qltb_comp : Proper (Qeq ==> Qeq ==> eq) Qltb.
Proof.
  intros a a' Ha b b' Hb. unfold Qltb. now rewrite Ha, Hb.
Qed.

#[local] Instance py_max_comp : Proper (Qeq ==> Qeq ==> Qeq) py_max.
Proof.
  intros a a' Ha b b' Hb. unfold py_max. rewrite Ha, Hb.
  destruct (Qltb a' b'); assumption.
Qed.

#[local] Instance py_min_comp : Proper (Qeq ==> Qeq ==> Qeq) py_min.
Proof.
  intros a a' Ha b b' Hb. unfold py_min. rewrite Ha, Hb.
  destruct (Qltb b' a'); assumption.
Qed.

#[local] Instance latency_scale_comp : Proper (Qeq ==> Qeq) latency_scale.
Proof.
  intros a a' Ha. unfold latency_scale. now rewrite Ha.
Qed.

#[local] Instance error_scale_comp : Proper (Qeq ==> Qeq) error_scale.
Proof.
  intros a a' Ha. unfold error_scale. now rewrite Ha.
Qed.

(** ** The one-second scenario *)

Section OneSecond.
  Import PrimFloat.
  Local Open Scope float_scope.
  #[local] Set Warnings "-inexact-float".

(** C6, as stated, fails: from [last_request_time = 1700000000],
    [latency = 0.0], [error_state = False], one [update_state] one second
    later with draws [0.05] and [0.5] leaves a latency that is not the
    float [0.01]. *)
Lemma scenario_latency_is_not_a_hundredth :
  let t0 := 1700000000 in
  let s := Binary64.mkServerState 0 0.01 false t0 in
  let s' := Binary64.update_state s (t0 + 1) 0.05 0.5 in
  (t0 + 1) - t0 = 1
  /\ (Binary64.latency s' =? 0.01) = false
  /\ Binary64.latency s' <> 0.01.
Proof.
  intros t0 s s'. split; [vm_compute; reflexivity |].
  split; [vm_compute; reflexivity |].
  intros H. apply (f_equal (fun x => x =? 0.01)) in H.
  vm_compute in H. discriminate.
Qed.

(** C6, as amended. From [last_request_time = t0], [latency = 0.0],
    [error_state = False], one [update_state] at clock [t0 + 1.0], the
    elapsed time computed being [1.0], with draws [0.05] and [0.5], uses
    the latency scale [0.2] and the error scale [0.1], does not flip the
    flag since [0.5 < 0.2 * 0.1] is false, and leaves the latency
    [0.05 * 0.2], which in binary64 is [0.010000000000000002]. *)
Theorem scenario_one_second_binary64 (t0 rate : float) :
  (t0 + 1) - t0 = 1 ->
  let s := Binary64.mkServerState 0 rate false t0 in
  let s' := Binary64.update_state s (t0 + 1) 0.05 0.5 in
  Binary64.latency_scale ((t0 + 1) - t0) = 0.2
  /\ Binary64.latency s' = 0.05 * 0.2
  /\ Binary64.latency s' = 0.010000000000000002
  /\ Binary64.error_scale ((t0 + 1) - t0) = 0.1
  /\ (0.5 <? 0.2 * Binary64.error_scale ((t0 + 1) - t0)) = false
  /\ Binary64.error_state s' = false
  /\ Binary64.last_request_time s' = t0 + 1.
Proof.
  intros H s s'. subst s s'.
  unfold Binary64.update_state.
  cbv beta iota zeta delta [Binary64.latency Binary64.error_state
    Binary64.last_request_time Binary64.error_rate].
  rewrite !H.
  repeat split; vm_compute; reflexivity.
Qed.

Lemma scenario_one_second_binary64_witness :
  let t0 := 1700000000 in
  let s := Binary64.mkServerState 0 0.01 false t0 in
  let s' := Binary64.update_state s (t0 + 1) 0.05 0.5 in
  Binary64.latency_scale ((t0 + 1) - t0) = 0.2
  /\ Binary64.latency s' = 0.05 * 0.2
  /\ Binary64.latency s' = 0.010000000000000002
  /\ Binary64.error_scale ((t0 + 1) - t0) = 0.1
  /\ (0.5 <? 0.2 * Binary64.error_scale ((t0 + 1) - t0)) = false
  /\ Binary64.error_state s' = false
  /\ Binary64.last_request_time s' = t0 + 1.
Proof.
  intros t0. apply (scenario_one_second_binary64 t0 0.01).
  vm_compute. reflexivity.
Defined.

End OneSecond.

(** ** Idle amplification *)

Lemma Qltb_cases (a b : Q) :
  (a < b /\ Qltb a b = true) \/ (b <= a /\ Qltb a b = false).
Proof.
  destruct (Qltb a b) eqn:E; [left | right]; split; auto.
  - now apply Qltb_true.
  - now apply Qltb_false.
Qed.

Lemma clamp_monotone (x y lo hi : Q) :
  lo <= hi -> x <= y -> clamp x lo hi <= clamp y lo hi.
Proof.
  intros Hb H. unfold clamp.
  destruct (Qltb_cases x lo) as [[? E1] | [? E1]],
    (Qltb_cases y lo) as [[? E2] | [? E2]],
    (Qltb_cases hi x) as [[? E3] | [? E3]],
    (Qltb_cases hi y) as [[? E4] | [? E4]];
    rewrite E1, E2, ?E3, ?E4; lra.
Qed.

Lemma latency_scale_monotone (e1 e2 : Q) :
  e1 <= e2 -> latency_scale e1 <= latency_scale e2.
Proof.
  intros H. unfold latency_scale. rewrite !py_min_max_clamp.
  apply clamp_monotone; [lra |].
  unfold Qdiv. apply Qmult_le_compat_r; [exact H | vm_compute; discriminate].
Qed.

Lemma latency_scale_pos (e : Q) : 0 < latency_scale e.
Proof.
  pose proof (latency_scale_bounds e) as H. lra.
Qed.

(** C7. For two [update_state] calls on the same object with the same
    draws, the call with the larger elapsed time applies a latency change
    of greater or equal magnitude, both for the change computed
    ([latency_change]) and for the change the latency undergoes. *)
Theorem larger_elapsed_larger_change (s : ServerState) (now1 now2 u r : Q) :
  0 <= now1 - last_request_time s ->
  now1 - last_request_time s <= now2 - last_request_time s ->
  Qabs (latency_change (now1 - last_request_time s) u)
    <= Qabs (latency_change (now2 - last_request_time s) u)
  /\ Qabs (latency (advance s now1 u r) - latency s)
       <= Qabs (latency (advance s now2 u r) - latency s).
Proof.
  intros _ Hle.
  set (e1 := now1 - last_request_time s) in *.
  set (e2 := now2 - last_request_time s) in *.
  pose proof (latency_scale_monotone e1 e2 Hle) as Hm.
  pose proof (latency_scale_pos e1) as Hp.
  cbn [advance latency]. fold e1 e2. unfold latency_change.
  set (k1 := latency_scale e1) in *. set (k2 := latency_scale e2) in *.
  set (l := latency s).
  destruct (Qlt_le_dec u 0) as [Hneg | Hpos].
  - assert (H21 : u * k2 <= u * k1) by nra.
    assert (H1 : u * k1 <= 0) by nra.
    set (c1 := u * k1) in *. set (c2 := u * k2) in *.
    split.
    + split_abs; lra.
    + destruct (py_max_cases 0 (l + c1)) as [[A1 ->] | [A1 ->]];
      destruct (py_max_cases 0 (l + c2)) as [[A2 ->] | [A2 ->]];
      split_abs; lra.
  - assert (H12 : u * k1 <= u * k2) by nra.
    assert (H1 : 0 <= u * k1) by nra.
    set (c1 := u * k1) in *. set (c2 := u * k2) in *.
    split.
    + split_abs; lra.
    + destruct (py_max_cases 0 (l + c1)) as [[A1 ->] | [A1 ->]];
      destruct (py_max_cases 0 (l + c2)) as [[A2 ->] | [A2 ->]];
      split_abs; lra.
Qed.

Lemma larger_elapsed_larger_change_witness :
  let s := mkServerState (1 # 20) (1 # 100) false 10 in
  Qabs (latency_change (11 - 10) (- (1 # 10)))
    <= Qabs (latency_change (40 - 10) (- (1 # 10)))
  /\ Qabs (latency (advance s 11 (- (1 # 10)) (1 # 2)) - latency s)
       <= Qabs (latency (advance s 40 (- (1 # 10)) (1 # 2)) - latency s).
Proof.
  intros s.
  apply (larger_elapsed_larger_change s 11 40 (- (1 # 10)) (1 # 2)).
  - simpl. lra.
  - simpl. lra.
Defined.

(** ** The endpoint's responses *)

(** C9. Every request returns, and its response is decided by the flag of
    the request's object after [update_state]: status 500 with the error
    body when the flag is set, status 200 with the greeting otherwise. *)
Theorem handle_request_outcomes (o : Oracle) (w : World) :
  exists resp w' s',
    handle_request o w = Some (resp, w')
    /\ nth_error (heap w') (length (heap w)) = Some s'
    /\ s' = request_state o w
    /\ (error_state s' = true ->
        resp = ([("error", "Simulated server error")]%string, 500%Z))
    /\ (error_state s' = false ->
        resp = ([("message", "Hello, World!")]%string, 200%Z))
    /\ (resp = ([("error", "Simulated server error")]%string, 500%Z)
        \/ resp = ([("message", "Hello, World!")]%string, 200%Z)).
Proof.
  eexists _, _, _. split; [apply handle_request_spec |].
  split; [apply nth_error_snoc |]. split; [reflexivity |].
  unfold error_response, ok_response.
  destruct (error_state (request_state o w)); repeat split; auto;
    discriminate.
Qed.

(** ** The endpoint's delay *)

Lemma request_latency_bounded (o : Oracle) (w : World) :
  - (1 # 10) <= entropy o (entropy_pos w) <= 1 # 10 ->
  0 <= latency (request_state o w) <= 2 # 10.
Proof.
  intros [Hlo Hhi]. split; [apply advance_latency_nonneg |].
  unfold request_state. cbn [advance latency initial_state].
  unfold latency_change.
  set (k := latency_scale _). set (u := entropy o (entropy_pos w)) in *.
  assert (Hk : 1 # 10 <= k <= 2) by apply latency_scale_bounds.
  assert (Hp : u * k <= 2 # 10) by nra.
  destruct (py_max_cases 0 (0 + u * k)) as [[_ ->] | [_ ->]]; lra.
Qed.

(** C10. For every request whose draw of [random.uniform(-0.1, 0.1)] lies
    in [[-0.1, 0.1]], whatever the clock and the other draw, the request
    returns and has slept once more, for a time in [[0, 0.2]]. *)
Theorem handle_request_sleeps_at_most_a_fifth (o : Oracle) (w : World) :
  - (1 # 10) <= entropy o (entropy_pos w) <= 1 # 10 ->
  exists resp w' d,
    handle_request o w = Some (resp, w')
    /\ slept w' = slept w ++ [d]
    /\ 0 <= d <= 2 # 10.
Proof.
  intros Hu. eexists _, _, _.
  split; [apply handle_request_spec |].
  split; [reflexivity |].
  now apply request_latency_bounded.
Qed.

Lemma handle_request_sleeps_at_most_a_fifth_witness :
  let o := mkOracle (fun i => 1000 * inject_Z (Z.of_nat i))
             (fun _ => 1 # 10) in
  let w := mkWorld 0 0 [] [] in
  exists resp w' d,
    handle_request o w = Some (resp, w')
    /\ slept w' = slept w ++ [d]
    /\ 0 <= d <= 2 # 10.
Proof.
  intros o w.
  apply (handle_request_sleeps_at_most_a_fifth o w).
  simpl. lra.
Defined.

(** ** Every request builds its own object *)

(** C1, evaluated on two consecutive requests, one second of clock each,
    draws [0.05] and [0.5].  The first request leaves an object of latency
    [0.01] at address 0.  The second request constructs another object, at
    address 1, whose latency is [0] and whose [last_request_time] is the
    time of its own construction: that is the state its [update_state]
    reads.  After the second request the first object is unchanged and the
    second has latency [0.01], not the accumulated drift. *)
Theorem second_request_reads_fresh_state :
  let o := mkOracle (fun i => nth i [100; 101; 200; 201] 0)
             (fun i => nth i [5 # 100; 1 # 2; 5 # 100; 1 # 2] 0) in
  let w0 := mkWorld 0 0 [] [] in
  exists r1 w1 left_by_first a2 w2 read_by_second r2 w3 left_by_second,
    handle_request o w0 = Some (r1, w1)
    /\ heap w1 = [left_by_first]
    /\ latency left_by_first == 1 # 100
    /\ last_request_time left_by_first == 101
    /\ ServerState_new o w1 = Some (a2, w2)
    /\ a2 = 1%nat
    /\ nth_error (heap w2) a2 = Some read_by_second
    /\ latency read_by_second == 0
    /\ last_request_time read_by_second == 200
    /\ ~ latency read_by_second == latency left_by_first
    /\ handle_request o w1 = Some (r2, w3)
    /\ serve 2 o w0 = Some ([r1; r2], w3)
    /\ heap w3 = [left_by_first; left_by_second]
    /\ latency left_by_second == 1 # 100.
Proof.
  intros o w0. eexists _, _, _, _, _, _, _, _, _.
  split; [vm_compute; reflexivity |].
  split; [reflexivity |].
  split; [vm_compute; reflexivity |].
  split; [vm_compute; reflexivity |].
  split; [vm_compute; reflexivity |].
  split; [reflexivity |].
  split; [reflexivity |].
  split; [vm_compute; reflexivity |].
  split; [vm_compute; reflexivity |].
  split; [vm_compute; discriminate |].
  split; [vm_compute; reflexivity |].
  split; [vm_compute; reflexivity |].
  split; [reflexivity |].
  vm_compute; reflexivity.
Qed.

(** * Further properties of the methods *)

(** ** [reset] *)

Lemma reset_spec (self : addr) (o : Oracle) (w : World) (s : ServerState) :
  nth_error (heap w) self = Some s ->
  reset self o w =
    Some (tt, mkWorld (clock_pos w) (entropy_pos w)
                (heap_set (heap w) self
                   (mkServerState 0 (error_rate s) false
                      (last_request_time s)))
                (slept w)).
Proof.
  intros Hs. pose proof (nth_error_allocated _ _ _ Hs) as Hlen.
  unfold reset, bind, store. rewrite Hs. cbn [heap].
  rewrite heap_set_same by assumption.
  cbn [clock_pos entropy_pos heap slept]. now rewrite heap_set_twice.
Qed.

(** X1. [reset] on an allocated object returns; it puts the latency to 0
    and the flag to [False] and keeps [error_rate] and
    [last_request_time]; the other objects, the clock, the random source
    and the sleep log are untouched, and a second [reset] changes
    nothing. *)
Theorem reset_effect (self : addr) (o : Oracle) (w : World)
  (s : ServerState) :
  nth_error (heap w) self = Some s ->
  exists w',
    reset self o w = Some (tt, w')
    /\ nth_error (heap w') self =
         Some (mkServerState 0 (error_rate s) false (last_request_time s))
    /\ (forall a, a <> self -> nth_error (heap w') a = nth_error (heap w) a)
    /\ clock_pos w' = clock_pos w
    /\ entropy_pos w' = entropy_pos w
    /\ slept w' = slept w
    /\ reset self o w' = Some (tt, w').
Proof.
  intros Hs. pose proof (nth_error_allocated _ _ _ Hs) as Hlen.
  eexists. split; [exact (reset_spec self o w s Hs) |].
  cbn [heap clock_pos entropy_pos slept].
  assert (Hs' : nth_error
                  (heap_set (heap w) self
                     (mkServerState 0 (error_rate s) false
                        (last_request_time s))) self =
                Some (mkServerState 0 (error_rate s) false
                        (last_request_time s)))
    by now apply heap_set_same.
  split; [exact Hs' |].
  split; [intros a Ha; now apply heap_set_other |].
  repeat (split; [reflexivity |]).
  erewrite reset_spec by (cbn [heap]; exact Hs').
  cbn [heap clock_pos entropy_pos slept error_rate last_request_time].
  now rewrite heap_set_twice.
Qed.

Lemma reset_effect_witness :
  let s := mkServerState (1 # 3) (1 # 100) true 42 in
  let w := mkWorld 5 7 [initial_state 0; s] [1 # 3] in
  let o := mkOracle (fun _ => 0) (fun _ => 0) in
  exists w',
    reset 1%nat o w = Some (tt, w')
    /\ nth_error (heap w') 1%nat =
         Some (mkServerState 0 (error_rate s) false (last_request_time s))
    /\ (forall a, a <> 1%nat -> nth_error (heap w') a = nth_error (heap w) a)
    /\ clock_pos w' = clock_pos w
    /\ entropy_pos w' = entropy_pos w
    /\ slept w' = slept w
    /\ reset 1%nat o w' = Some (tt, w').
Proof.
  intros s w o. apply (reset_effect 1%nat o w s). reflexivity.
Defined.

(** X2. [reset] followed by [update_state] forgets the latency and the flag
    the object had: with a draw of [random.uniform] in [[-0.1, 0.1]] the
    new latency lies in [[0, 0.2]], and the flag is set exactly when the
    draw of [random.random] is below [0.2 * error_scale]; the elapsed time
    is still counted from the [last_request_time] the object had before
    [reset]. *)
Theorem reset_then_update_state (self : addr) (o : Oracle) (w : World)
  (s : ServerState) :
  nth_error (heap w) self = Some s ->
  - (1 # 10) <= entropy o (entropy_pos w) <= 1 # 10 ->
  exists w' s',
    (reset self ;;; update_state self) o w = Some (tt, w')
    /\ nth_error (heap w') self = Some s'
    /\ 0 <= latency s' <= 2 # 10
    /\ (error_state s' = true
        <-> entropy o (S (entropy_pos w))
              < (2 # 10)
                * error_scale (clock o (clock_pos w) - last_request_time s))
    /\ last_request_time s' = clock o (clock_pos w).
Proof.
  intros Hs [Hlo Hhi]. pose proof (nth_error_allocated _ _ _ Hs) as Hlen.
  set (s0 := mkServerState 0 (error_rate s) false (last_request_time s)).
  set (w0 := mkWorld (clock_pos w) (entropy_pos w)
               (heap_set (heap w) self s0) (slept w)).
  assert (H0 : nth_error (heap w0) self = Some s0)
    by (cbn [heap w0]; now apply heap_set_same).
  eexists _, _. split.
  { unfold bind. rewrite (reset_spec self o w s Hs). fold s0 w0.
    exact (update_state_spec self o w0 s0 H0). }
  split; [exact (after_update_lookup self s0 o w0 H0) |].
  cbn [clock_pos entropy_pos w0].
  split; [| split; [| reflexivity]].
  - split; [apply advance_latency_nonneg |].
    cbn [advance latency s0 last_request_time]. unfold latency_change.
    set (k := latency_scale _). set (u := entropy o (entropy_pos w)) in *.
    assert (Hk : 1 # 10 <= k <= 2) by apply latency_scale_bounds.
    assert (Hp : u * k <= 2 # 10) by nra.
    destruct (py_max_cases 0 (0 + u * k)) as [[_ ->] | [_ ->]]; lra.
  - pose proof (advance_flag s0 (clock o (clock_pos w))
                  (entropy o (entropy_pos w))
                  (entropy o (S (entropy_pos w)))) as Hf.
    cbn [s0 error_state last_request_time negb] in Hf.
    cbn [s0 last_request_time] in *. exact Hf.
Qed.

Lemma reset_then_update_state_witness :
  let s := mkServerState 3 (1 # 100) true 10 in
  let w := mkWorld 0 0 [s] [] in
  let o := mkOracle (fun _ => 70) (fun _ => 1 # 10) in
  exists w' s',
    (reset 0%nat ;;; update_state 0%nat) o w = Some (tt, w')
    /\ nth_error (heap w') 0%nat = Some s'
    /\ 0 <= latency s' <= 2 # 10
    /\ (error_state s' = true
        <-> (1 # 10) < (2 # 10) * error_scale (70 - 10))
    /\ last_request_time s' = 70.
Proof.
  intros s w o. apply (reset_then_update_state 0%nat o w s).
  - reflexivity.
  - simpl. lra.
Defined.

(** ** [simulate_latency] *)

Lemma simulate_latency_spec (self : addr) (o : Oracle) (w : World)
  (s : ServerState) :
  nth_error (heap w) self = Some s ->
  0 <= latency s ->
  simulate_latency self o w =
    Some (tt, mkWorld (clock_pos w) (entropy_pos w) (heap w)
                (slept w ++ [latency s])).
Proof.
  intros Hs Hp. unfold simulate_latency, bind, load, time_sleep. rewrite Hs.
  apply Qltb_false in Hp. now rewrite Hp.
Qed.

(** X4. On an object of negative latency [simulate_latency] raises, but
    after one [update_state] with a draw of [random.uniform] in
    [[-0.1, 0.1]] it does not: the sleep lasts the new latency, which lies
    in [[0, 0.2]], whatever the clock and the other draw. *)
Theorem update_state_repairs_negative_latency (self : addr) (o : Oracle)
  (w : World) (s : ServerState) :
  nth_error (heap w) self = Some s ->
  latency s < 0 ->
  - (1 # 10) <= entropy o (entropy_pos w) <= 1 # 10 ->
  simulate_latency self o w = None
  /\ exists w' s',
       (update_state self ;;; simulate_latency self) o w = Some (tt, w')
       /\ nth_error (heap w') self = Some s'
       /\ slept w' = slept w ++ [latency s']
       /\ 0 <= latency s' <= 2 # 10.
Proof.
  intros Hs Hneg [Hlo Hhi]. split.
  { unfold simulate_latency, bind, load, time_sleep. rewrite Hs.
    apply Qltb_true in Hneg. now rewrite Hneg. }
  pose proof (after_update_lookup self s o w Hs) as Hl.
  set (s' := advance _ _ _ _) in Hl.
  assert (Hn : 0 <= latency s') by apply advance_latency_nonneg.
  eexists _, s'. split.
  { unfold bind at 1. rewrite (update_state_spec self o w s Hs).
    exact (simulate_latency_spec self o _ s' Hl Hn). }
  cbn [heap slept]. split; [exact Hl |]. split; [reflexivity |].
  split; [exact Hn |].
  cbn [s' advance latency]. unfold latency_change.
  set (k := latency_scale _). set (u := entropy o (entropy_pos w)) in *.
  assert (Hk : 1 # 10 <= k <= 2) by apply latency_scale_bounds.
  assert (Hp : u * k <= 2 # 10) by nra.
  destruct (py_max_cases 0 (latency s + u * k)) as [[? ->] | [? ->]]; lra.
Qed.

Lemma update_state_repairs_negative_latency_witness :
  let s := mkServerState (- (1 # 20)) (1 # 100) false 0 in
  let w := mkWorld 0 0 [s] [] in
  let o := mkOracle (fun _ => 30) (fun _ => 1 # 10) in
  simulate_latency 0%nat o w = None
  /\ exists w' s',
       (update_state 0%nat ;;; simulate_latency 0%nat) o w = Some (tt, w')
       /\ nth_error (heap w') 0%nat = Some s'
       /\ slept w' = slept w ++ [latency s']
       /\ 0 <= latency s' <= 2 # 10.
Proof.
  intros s w o.
  apply (update_state_repairs_negative_latency 0%nat o w s).
  - reflexivity.
  - simpl. lra.
  - simpl. lra.
Defined.

(** ** What [update_state] leaves alone *)

(** X5. [update_state] on an allocated object reads the clock once and the
    random source twice, does not sleep, allocates nothing and leaves every
    other object as it was. *)
Theorem update_state_frame (self : addr) (o : Oracle) (w : World)
  (s : ServerState) :
  nth_error (heap w) self = Some s ->
  exists w',
    update_state self o w = Some (tt, w')
    /\ clock_pos w' = S (clock_pos w)
    /\ entropy_pos w' = S (S (entropy_pos w))
    /\ slept w' = slept w
    /\ length (heap w') = length (heap w)
    /\ (forall a, a <> self -> nth_error (heap w') a = nth_error (heap w) a).
Proof.
  intros Hs. eexists. split; [exact (update_state_spec self o w s Hs) |].
  cbn [after_update clock_pos entropy_pos slept heap].
  repeat (split; [reflexivity |]).
  split; [apply heap_set_length |].
  intros a Ha. now apply heap_set_other.
Qed.

Lemma update_state_frame_witness :
  let w := mkWorld 0 0 [initial_state 0; initial_state 1] [1 # 2] in
  let o := mkOracle (fun _ => 3) (fun _ => 1 # 20) in
  exists w',
    update_state 1%nat o w = Some (tt, w')
    /\ clock_pos w' = S (clock_pos w)
    /\ entropy_pos w' = S (S (entropy_pos w))
    /\ slept w' = slept w
    /\ length (heap w') = length (heap w)
    /\ (forall a, a <> 1%nat -> nth_error (heap w') a = nth_error (heap w) a).
Proof.
  intros w o. apply (update_state_frame 1%nat o w (initial_state 1)).
  reflexivity.
Defined.

(** ** The fields [error_rate] and [last_request_time] along a run *)

Lemma states_from_error_rate (o : Oracle) (n : nat) :
  forall (cp ep : nat) (s : ServerState),
    error_rate (last (states_from o cp ep s n) s) = error_rate s.
Proof.
  induction n as [| n IH]; intros cp ep s; [reflexivity |].
  cbn [states_from]. rewrite last_cons, IH. reflexivity.
Qed.

Lemma states_from_last_time (o : Oracle) (n : nat) :
  forall (cp ep : nat) (s : ServerState),
    last_request_time (last (states_from o cp ep s (S n)) s) =
      clock o (cp + n)%nat.
Proof.
  induction n as [| n IH]; intros cp ep s.
  - cbn [states_from last advance last_request_time].
    now rewrite Nat.add_0_r.
  - change (states_from o cp ep s (S (S n)))
      with (advance s (clock o cp) (entropy o ep) (entropy o (S ep))
              :: states_from o (S cp) (S (S ep))
                   (advance s (clock o cp) (entropy o ep)
                      (entropy o (S ep))) (S n)).
    rewrite last_cons, IH. f_equal. lia.
Qed.

(** X6. After [n + 1] successive [update_state] calls on an object, its
    [last_request_time] is the clock reading of the last call and its
    [error_rate] is the one it started with. *)
Theorem update_many_time_and_rate (self : addr) (o : Oracle) (n : nat)
  (w : World) (s : ServerState) :
  nth_error (heap w) self = Some s ->
  exists outs w' s',
    update_many self (S n) o w = Some (outs, w')
    /\ nth_error (heap w') self = Some s'
    /\ last_request_time s' = clock o (clock_pos w + n)%nat
    /\ error_rate s' = error_rate s.
Proof.
  intros Hs.
  destruct (update_many_spec self o (S n) w s Hs)
    as (w' & Hrun & Hlast & _).
  eexists _, w', _. split; [exact Hrun |]. split; [exact Hlast |].
  split; [apply states_from_last_time | apply states_from_error_rate].
Qed.

Lemma update_many_time_and_rate_witness :
  let s := mkServerState 0 (3 # 4) false 0 in
  let w := mkWorld 0 0 [s] [] in
  let o := mkOracle (fun i => inject_Z (Z.of_nat i) + 10) (fun _ => 0) in
  exists outs w' s',
    update_many 0%nat 3 o w = Some (outs, w')
    /\ nth_error (heap w') 0%nat = Some s'
    /\ last_request_time s' = clock o (0 + 2)%nat
    /\ error_rate s' = 3 # 4.
Proof.
  intros s w o. apply (update_many_time_and_rate 0%nat o 2 w s).
  reflexivity.
Defined.

(** ** The drift of the latency is bounded *)







(** ** Sequences of requests *)

(** X8. [n] successive requests all return; each response is one of the
    two fixed ones; every request appends one new object to the heap and
    one entry to the sleep log and leaves the objects of earlier requests
    as they were; it reads the clock twice and the random source twice. *)
Theorem serve_allocates_per_request (o : Oracle) (n : nat) :
  forall w : World,
  exists resps news w',
    serve n o w = Some (resps, w')
    /\ length resps = n
    /\ Forall (fun r => r = error_response \/ r = ok_response) resps
    /\ heap w' = heap w ++ news
    /\ length news = n
    /\ length (slept w') = (length (slept w) + n)%nat
    /\ clock_pos w' = (clock_pos w + 2 * n)%nat
    /\ entropy_pos w' = (entropy_pos w + 2 * n)%nat.
Proof.
  induction n as [| n IH]; intros w.
  - exists [], [], w. cbn [serve]. unfold ret.
    rewrite app_nil_r. repeat split; auto; simpl; lia.
  - cbn [serve]. unfold bind at 1. rewrite handle_request_spec.
    set (w1 := mkWorld _ _ _ _).
    destruct (IH w1) as (resps & news & w' & Hrun & Hlen & Hall & Hheap
                         & Hnews & Hsl & Hc & He).
    eexists (_ :: resps), (request_state o w :: news), w'.
    unfold bind at 1. rewrite Hrun. unfold ret.
    split; [reflexivity |].
    split; [simpl; now rewrite Hlen |].
    split.
    { constructor; [| exact Hall].
      destruct (error_state (request_state o w)); auto. }
    split; [rewrite Hheap; cbn [heap w1]; now rewrite <- app_assoc |].
    split; [simpl; now rewrite Hnews |].
    split.
    { rewrite Hsl. cbn [slept w1]. rewrite length_app. simpl. lia. }
    split; [rewrite Hc | rewrite He]; cbn [clock_pos entropy_pos w1]; lia.
Qed.

(** ** A request does not depend on earlier requests *)

Lemma request_state_positions (o : Oracle) (w1 w2 : World) :
  clock_pos w1 = clock_pos w2 ->
  entropy_pos w1 = entropy_pos w2 ->
  request_state o w1 = request_state o w2.
Proof.
  intros Hc He. unfold request_state. now rewrite Hc, He.
Qed.

(** X9. The response of a request and the time it sleeps depend on the
    clock readings and the draws only: two requests that read the same
    clock and random entries answer alike, whatever objects their heaps
    hold. *)
Theorem handle_request_ignores_heap (o : Oracle) (w1 w2 : World) :
  clock_pos w1 = clock_pos w2 ->
  entropy_pos w1 = entropy_pos w2 ->
  exists resp d w1' w2',
    handle_request o w1 = Some (resp, w1')
    /\ handle_request o w2 = Some (resp, w2')
    /\ slept w1' = slept w1 ++ [d]
    /\ slept w2' = slept w2 ++ [d].
Proof.
  intros Hc He. eexists _, _, _, _.
  split; [apply handle_request_spec |].
  rewrite (handle_request_spec o w2).
  rewrite <- (request_state_positions o w1 w2 Hc He).
  repeat split.
Qed.

Lemma handle_request_ignores_heap_witness :
  let o := mkOracle (fun i => inject_Z (Z.of_nat i)) (fun _ => 1 # 100) in
  let w1 := mkWorld 0 0 [] [] in
  let w2 := mkWorld 0 0 [mkServerState 9 (1 # 100) true (- 50)] [9] in
  exists resp d w1' w2',
    handle_request o w1 = Some (resp, w1')
    /\ handle_request o w2 = Some (resp, w2')
    /\ slept w1' = slept w1 ++ [d]
    /\ slept w2' = slept w2 ++ [d].
Proof.
  intros o w1 w2. apply (handle_request_ignores_heap o w1 w2); reflexivity.
Defined.

(** ** When a request fails *)

Lemma request_state_flag (o : Oracle) (w : World) :
  error_state (request_state o w) =
    flips (clock o (S (clock_pos w)) - clock o (clock_pos w))
      (entropy o (S (entropy_pos w))).
Proof.
  unfold request_state.
  cbn [advance error_state initial_state last_request_time negb].
  now destruct (flips _ _).
Qed.

(** X10. A request answers with status 500 exactly when its draw of
    [random.random] is below [0.2 * error_scale], the scale being taken on
    the time between the construction of the request's object and its
    [update_state]; otherwise the status is 200. *)
Theorem handle_request_fails_iff (o : Oracle) (w : World) :
  exists resp w',
    handle_request o w = Some (resp, w')
    /\ (snd resp = 500%Z
        <-> entropy o (S (entropy_pos w))
              < (2 # 10)
                * error_scale
                    (clock o (S (clock_pos w)) - clock o (clock_pos w)))
    /\ (snd resp = 500%Z \/ snd resp = 200%Z).
Proof.
  eexists _, _. split; [apply handle_request_spec |].
  rewrite request_state_flag. unfold flips. rewrite <- Qltb_true.
  destruct (Qltb _ _); cbn [snd error_response ok_response].
  - split; [tauto | now left].
  - split; [| now right]. split; discriminate.
Qed.

Lemma error_scale_low (e : Q) : e <= 1 -> error_scale e == 1 # 10.
Proof.
  intros He. unfold error_scale. rewrite py_min_max_clamp. unfold clamp.
  assert (Hx : e / 10 * 10 == e) by field.
  set (x := e / 10) in *.
  destruct (Qltb_cases x (1 # 10)) as [[? ->] | [? ->]]; [reflexivity |].
  destruct (Qltb_cases 2 x) as [[? ->] | [? ->]]; lra.
Qed.

(** X11. When at most one second passes between the construction of the
    request's object and its [update_state], the request answers with
    status 500 exactly when the draw of [random.random] is below
    [0.02]. *)
Theorem handle_request_fails_below_fiftieth (o : Oracle) (w : World) :
  clock o (S (clock_pos w)) - clock o (clock_pos w) <= 1 ->
  exists resp w',
    handle_request o w = Some (resp, w')
    /\ (snd resp = 500%Z <-> entropy o (S (entropy_pos w)) < 1 # 50).
Proof.
  intros He. eexists _, _. split; [apply handle_request_spec |].
  rewrite request_state_flag. unfold flips.
  pose proof (error_scale_low _ He) as Hs.
  assert (Ht : (2 # 10)
               * error_scale
                   (clock o (S (clock_pos w)) - clock o (clock_pos w))
               == 1 # 50) by (rewrite Hs; reflexivity).
  rewrite Ht. rewrite <- Qltb_true.
  destruct (Qltb _ _); cbn [snd error_response ok_response].
  - tauto.
  - split; discriminate.
Qed.

Lemma handle_request_fails_below_fiftieth_witness :
  let o := mkOracle (fun i => match i with O => 7 | _ => 15 # 2 end)
             (fun _ => 1 # 100) in
  let w := mkWorld 0 0 [] [] in
  exists resp w',
    handle_request o w = Some (resp, w')
    /\ (snd resp = 500%Z <-> entropy o 1 < 1 # 50).
Proof.
  intros o w. apply (handle_request_fails_below_fiftieth o w).
  simpl. lra.
Defined.

(** ** Where the scales saturate *)

Lemma Qle_bool_cases (a b : Q) :
  (a <= b /\ Qle_bool a b = true) \/ (b < a /\ Qle_bool a b = false).
Proof.
  destruct (Qle_bool a b) eqn:E; [left | right]; split; auto.
  - now apply Qle_bool_iff.
  - apply Qnot_le_lt. intros H. apply Qle_bool_iff in H. congruence.
Qed.

Lemma latency_scale_breakpoints (e : Q) :
  clamp (e / 5) (1 # 10) 2 ==
    if Qle_bool e (1 # 2) then 1 # 10
    else if Qle_bool 10 e then 2 else e / 5.
Proof.
  unfold clamp.
  assert (Hx : e / 5 * 5 == e) by field.
  set (x := e / 5) in *.
  destruct (Qle_bool_cases e (1 # 2)) as [[? E1] | [? E1]],
    (Qle_bool_cases 10 e) as [[? E2] | [? E2]],
    (Qltb_cases x (1 # 10)) as [[? E3] | [? E3]],
    (Qltb_cases 2 x) as [[? E4] | [? E4]];
    rewrite E1, E3, ?E2, ?E4; lra.
Qed.

Lemma error_scale_breakpoints (e : Q) :
  clamp (e / 10) (1 # 10) 2 ==
    if Qle_bool e 1 then 1 # 10
    else if Qle_bool 20 e then 2 else e / 10.
Proof.
  unfold clamp.
  assert (Hx : e / 10 * 10 == e) by field.
  set (x := e / 10) in *.
  destruct (Qle_bool_cases e 1) as [[? E1] | [? E1]],
    (Qle_bool_cases 20 e) as [[? E2] | [? E2]],
    (Qltb_cases x (1 # 10)) as [[? E3] | [? E3]],
    (Qltb_cases 2 x) as [[? E4] | [? E4]];
    rewrite E1, E3, ?E2, ?E4; lra.
Qed.

(** X12. The latency scale is [0.1] up to half a second of elapsed time
    (negative elapsed times included), [2.0] from ten seconds on and
    [elapsed / 5.0] in between; the error scale is [0.1] up to one second,
    [2.0] from twenty seconds on and [elapsed / 10.0] in between. *)
Theorem scale_breakpoints (elapsed : Q) :
  latency_scale elapsed ==
    (if Qle_bool elapsed (1 # 2) then 1 # 10
     else if Qle_bool 10 elapsed then 2 else elapsed / 5)
  /\ error_scale elapsed ==
       (if Qle_bool elapsed 1 then 1 # 10
        else if Qle_bool 20 elapsed then 2 else elapsed / 10).
Proof.
  unfold latency_scale, error_scale. rewrite !py_min_max_clamp.
  split; [apply latency_scale_breakpoints | apply error_scale_breakpoints].
Qed.

(** ** The lower barrier of the latency *)

Lemma states_from_stuck_at_zero (o : Oracle) (n : nat) :
  forall (cp ep : nat) (s : ServerState),
    latency s == 0 ->
    (forall i, (i < n)%nat -> entropy o (ep + 2 * i)%nat <= 0) ->
    Forall (fun s' => latency s' == 0) (states_from o cp ep s n).
Proof.
  induction n as [| n IH]; intros cp ep s Hl Hu; [constructor |].
  cbn [states_from].
  set (s1 := advance s (clock o cp) (entropy o ep) (entropy o (S ep))).
  assert (Hu0 : entropy o ep <= 0).
  { specialize (Hu 0%nat). rewrite Nat.mul_0_r, Nat.add_0_r in Hu.
    apply Hu. lia. }
  assert (Hl1 : latency s1 == 0).
  { cbn [s1 advance latency]. unfold latency_change.
    set (k := latency_scale _).
    assert (Hk : 1 # 10 <= k <= 2) by apply latency_scale_bounds.
    assert (Hp : entropy o ep * k <= 0) by nra.
    destruct (py_max_cases 0 (latency s + entropy o ep * k))
      as [[? ->] | [? ->]]; lra. }
  constructor; [exact Hl1 |].
  apply IH; [exact Hl1 |].
  intros i Hi. replace (S (S ep) + 2 * i)%nat with (ep + 2 * S i)%nat
    by lia. apply Hu. lia.
Qed.

(** X13. An object of latency 0 keeps latency 0 along successive
    [update_state] calls as long as the draws of [random.uniform] are not
    positive, whatever the clock: the walk is clipped at zero. *)
Theorem update_many_stuck_at_zero (self : addr) (o : Oracle) (n : nat)
  (w : World) (s : ServerState) :
  nth_error (heap w) self = Some s ->
  latency s == 0 ->
  (forall i, (i < n)%nat -> entropy o (entropy_pos w + 2 * i)%nat <= 0) ->
  exists outs w',
    update_many self n o w = Some (outs, w')
    /\ Forall (fun p => fst p == 0) outs.
Proof.
  intros Hs Hl Hu.
  destruct (update_many_spec self o n w s Hs) as (w' & Hrun & _).
  eexists _, w'. split; [exact Hrun |].
  apply Forall_map. cbn [observe fst].
  exact (states_from_stuck_at_zero o n (clock_pos w) (entropy_pos w) s
           Hl Hu).
Qed.

Lemma update_many_stuck_at_zero_witness :
  let w := mkWorld 0 0 [initial_state 0] [] in
  let o := mkOracle (fun i => 30 * inject_Z (Z.of_nat i))
             (fun i => if Nat.even i then - (1 # 10) else 1 # 2) in
  exists outs w',
    update_many 0%nat 2 o w = Some (outs, w')
    /\ Forall (fun p => fst p == 0) outs.
Proof.
  intros w o. apply (update_many_stuck_at_zero 0%nat o 2 w (initial_state 0)).
  - reflexivity.
  - simpl. lra.
  - intros i Hi. assert (Hi' : (i = 0 \/ i = 1)%nat) by lia.
    destruct Hi' as [-> | ->]; simpl; lra.
Defined.

(** ** How long a request sleeps *)

(** X14. A request sleeps for [draw * latency_scale] when its draw of
    [random.uniform] is positive and does not wait at all otherwise; the
    scale is taken on the time between the construction of the request's
    object and its [update_state]. *)
Theorem handle_request_sleep_time (o : Oracle) (w : World) :
  exists resp w' d,
    handle_request o w = Some (resp, w')
    /\ slept w' = slept w ++ [d]
    /\ (0 < entropy o (entropy_pos w) ->
        d == entropy o (entropy_pos w)
             * latency_scale
                 (clock o (S (clock_pos w)) - clock o (clock_pos w)))
    /\ (entropy o (entropy_pos w) <= 0 -> d == 0).
Proof.
  eexists _, _, _. split; [apply handle_request_spec |].
  split; [reflexivity |].
  unfold request_state.
  cbn [advance latency initial_state last_request_time].
  unfold latency_change.
  set (k := latency_scale _). set (u := entropy o (entropy_pos w)).
  assert (Hk : 1 # 10 <= k <= 2) by apply latency_scale_bounds.
  split; intros Hu.
  - assert (Hp : 0 < u * k) by nra.
    destruct (py_max_cases 0 (0 + u * k)) as [[? ->] | [? ->]]; lra.
  - assert (Hp : u * k <= 0) by nra.
    destruct (py_max_cases 0 (0 + u * k)) as [[? ->] | [? ->]]; lra.
Qed.
